(** * shopcrm: pricing and lifecycle engine of [app.py]

    A shallow embedding of the pricing, totals and lifecycle code of
    [src/app.py] (the Flask handlers stripped of HTML rendering), and the
    properties of it that the specification states.

    Modelling conventions.
    - [Decimal.t] is Python's [decimal.Decimal] restricted to finite values:
      an integer coefficient and an exponent, with exact arithmetic.  The
      context precision of 28 significant digits is never reached by the
      amounts considered, so no operation rounds except [quantize], which
      rounds half-to-even as Python's default context does.  NaN and the
      infinities, which [Decimal(...)] also parses, are outside the model.
    - A database table is the list of its rows in insertion order; a row is
      a record holding its primary key.  A query is a [filter] or a [find]
      over that list, an attribute assignment rewrites the row with that
      primary key.
    - [models.py] is not part of the source file; the columns used here are
      the attributes [app.py] reads and writes.
    - A request runs in a session: [store] is the session's view (what
      queries see, pending writes included), [saved] the last committed
      state.  [abort] and the end of the request drop what was not
      committed. *)

From stdpp Require Import base option list sorting strings pretty gmap.
From Stdlib Require Import ZArith Lia.

Local Open Scope Z_scope.

(* ================================================================== *)
(** ** Decimal *)

Module Decimal.

(** The value of [mk c e] is [c * 10^e]. *)
Record t := mk { coef : Z; expo : Z }.

Definition pow10 (k : Z) : Z := 10 ^ k.

(** Coefficient of [a] written at the exponent [e <= expo a]. *)
Definition scaled (a : t) (e : Z) : Z := coef a * pow10 (expo a - e).

Definition add (a b : t) : t :=
  let e := Z.min (expo a) (expo b) in
  mk (scaled a e + scaled b e) e.

Definition mul (a b : t) : t := mk (coef a * coef b) (expo a + expo b).

Definition neg (a : t) : t := mk (- coef a) (expo a).

Definition abs (a : t) : t := mk (Z.abs (coef a)) (expo a).

Definition compare (a b : t) : comparison :=
  let e := Z.min (expo a) (expo b) in
  Z.compare (scaled a e) (scaled b e).

(** [a <= b], [a >= b], [a == b], [a > b] of Python. *)
Definition leb (a b : t) : bool :=
  match compare a b with Gt => false | _ => true end.
Definition geb (a b : t) : bool := leb b a.
Definition eqb (a b : t) : bool :=
  match compare a b with Eq => true | _ => false end.

(** Truth value of a Decimal: false exactly for zero. *)
Definition truthy (a : t) : bool := negb (coef a =? 0).

(** Division of [c] by [d > 0] rounded to the nearest integer, ties to the
    even neighbour (ROUND_HALF_EVEN). *)
Definition round_half_even (c d : Z) : Z :=
  let q := c / d in
  let r := c mod d in
  if 2 * r <? d then q
  else if d <? 2 * r then q + 1
  else if Z.even q then q else q + 1.

(** [a.quantize(q)]: the value of [a] rounded to the exponent of [q]. *)
Definition quantize (a q : t) : t :=
  let e := expo q in
  if e <=? expo a then mk (scaled a e) e
  else mk (round_half_even (coef a) (pow10 (e - expo a))) e.

(** [Decimal("0.00")], [Decimal("0.01")], the int [0], [Decimal("-1.00")]
    and [Decimal("1.00")]. *)
Definition zero_00 : t := mk 0 (-2).
Definition cent : t := mk 1 (-2).
Definition int_zero : t := mk 0 0.
Definition minus_one_00 : t := mk (-100) (-2).
Definition one_00 : t := mk 100 (-2).


End Decimal.

Arguments Decimal.add : simpl never.
Arguments Decimal.mul : simpl never.
Arguments Decimal.quantize : simpl never.
Arguments Decimal.compare : simpl never.
Arguments Decimal.leb : simpl never.


(** [x or 0] on a nullable Decimal column: [None] and a zero Decimal are
    both falsy and give the int 0. *)
Definition or0 (x : option Decimal.t) : Decimal.t :=
  match x with
  | Some d => if Decimal.truthy d then d else Decimal.int_zero
  | None => Decimal.int_zero
  end.

(** [sum(xs, start=Decimal("0.00"))]. *)
Definition sum_from_zero (xs : list Decimal.t) : Decimal.t :=
  foldl Decimal.add Decimal.zero_00 xs.

(* ================================================================== *)
(** ** Data model *)

(** A [datetime.utcnow()] reading. *)
Definition datetime : Type := Z.

Module RepairOrder.
Record t := mk {
  id : string;
  status : string;
  closed_at : option datetime;
  deleted_at : option datetime;
}.
Definition set_status (v : string) (r : t) : t :=
  mk (id r) v (closed_at r) (deleted_at r).
Definition set_closed_at (v : option datetime) (r : t) : t :=
  mk (id r) (status r) v (deleted_at r).
End RepairOrder.

Module Job.
Record t := mk {
  id : string;
  ro_id : string;
  title : string;
  status : string;
  completed_at : option datetime;
  tech_id : option string;
}.
Definition set_status (v : string) (j : t) : t :=
  mk (id j) (ro_id j) (title j) v (completed_at j) (tech_id j).
Definition set_completed_at (v : option datetime) (j : t) : t :=
  mk (id j) (ro_id j) (title j) (status j) v (tech_id j).
End Job.

Module Document.
Record t := mk {
  id : string;
  ro_id : string;
  doc_type : string;
  version : Z;
  status : string;
  subtotal : Decimal.t;
  tax : Decimal.t;
  total : Decimal.t;
  locked_at : option datetime;
  sent_at : option datetime;
  share_token : option string;
}.
Definition set_status (v : string) (d : t) : t :=
  mk (id d) (ro_id d) (doc_type d) (version d) v (subtotal d) (tax d)
     (total d) (locked_at d) (sent_at d) (share_token d).
Definition set_totals (s x tot : Decimal.t) (d : t) : t :=
  mk (id d) (ro_id d) (doc_type d) (version d) (status d) s x tot
     (locked_at d) (sent_at d) (share_token d).
Definition set_locked_at (v : option datetime) (d : t) : t :=
  mk (id d) (ro_id d) (doc_type d) (version d) (status d) (subtotal d)
     (tax d) (total d) v (sent_at d) (share_token d).
Definition set_sent_at (v : option datetime) (d : t) : t :=
  mk (id d) (ro_id d) (doc_type d) (version d) (status d) (subtotal d)
     (tax d) (total d) (locked_at d) v (share_token d).
Definition set_share_token (v : option string) (d : t) : t :=
  mk (id d) (ro_id d) (doc_type d) (version d) (status d) (subtotal d)
     (tax d) (total d) (locked_at d) (sent_at d) v.
End Document.

Module LineItem.
Record t := mk {
  id : string;
  document_id : string;
  job_id : option string;
  item_type : string;
  description : string;
  qty : option Decimal.t;
  unit_price : option Decimal.t;
  taxable : bool;
  labor_hours : option Decimal.t;
  cost : option Decimal.t;
}.
End LineItem.

Module ROEvent.
Record t := mk {
  ro_id : string;
  event_type : string;
  old_value : option string;
  new_value : option string;
}.
End ROEvent.

Module LaborMatrixTier.
Record t := mk {
  id : string;
  min_hours : Decimal.t;
  max_hours : option Decimal.t;
  rate_per_hour : Decimal.t;
}.
End LaborMatrixTier.

Module PartsMatrixTier.
Record t := mk {
  id : string;
  min_cost : Decimal.t;
  max_cost : option Decimal.t;
  multiplier : Decimal.t;
}.
End PartsMatrixTier.

Module Technician.
Record t := mk {
  id : string;
  name : string;
  total_hours : option Decimal.t;
}.
End Technician.

(** The tables the engine reads and writes. *)
Record DB := mkDB {
  ros : list RepairOrder.t;
  jobs : list Job.t;
  docs : list Document.t;
  line_items : list LineItem.t;
  events : list ROEvent.t;
  labor_tiers : list LaborMatrixTier.t;
  parts_tiers : list PartsMatrixTier.t;
  technicians : list Technician.t;
}.

Definition with_ros (f : list RepairOrder.t -> list RepairOrder.t) (db : DB) : DB :=
  mkDB (f (ros db)) (jobs db) (docs db) (line_items db) (events db)
       (labor_tiers db) (parts_tiers db) (technicians db).
Definition with_jobs (f : list Job.t -> list Job.t) (db : DB) : DB :=
  mkDB (ros db) (f (jobs db)) (docs db) (line_items db) (events db)
       (labor_tiers db) (parts_tiers db) (technicians db).
Definition with_docs (f : list Document.t -> list Document.t) (db : DB) : DB :=
  mkDB (ros db) (jobs db) (f (docs db)) (line_items db) (events db)
       (labor_tiers db) (parts_tiers db) (technicians db).
Definition with_line_items (f : list LineItem.t -> list LineItem.t) (db : DB) : DB :=
  mkDB (ros db) (jobs db) (docs db) (f (line_items db)) (events db)
       (labor_tiers db) (parts_tiers db) (technicians db).
Definition with_events (f : list ROEvent.t -> list ROEvent.t) (db : DB) : DB :=
  mkDB (ros db) (jobs db) (docs db) (line_items db) (f (events db))
       (labor_tiers db) (parts_tiers db) (technicians db).
Definition with_technicians (f : list Technician.t -> list Technician.t) (db : DB) : DB :=
  mkDB (ros db) (jobs db) (docs db) (line_items db) (events db)
       (labor_tiers db) (parts_tiers db) (f (technicians db)).

(** [Model.query.get(k)]: the row with primary key [k]. *)
Definition get {A : Type} (key : A -> string) (k : string) (rows : list A) : option A :=
  find (fun r => String.eqb (key r) k) rows.

(** An attribute assignment on the row with primary key [k]. *)
Definition update {A : Type} (key : A -> string) (k : string) (f : A -> A)
    (rows : list A) : list A :=
  map (fun r => if String.eqb (key r) k then f r else r) rows.

(** A primary key the table does not hold yet (the column default). *)
Definition new_id (used : list string) : string :=
  fresh (list_to_set used : gset string).

(** [x in (a, b, ...)] on strings. *)
Definition in_strs (x : string) (l : list string) : bool :=
  existsb (String.eqb x) l.

(** [ORDER BY key ASC]: a stable insertion sort on a Decimal column. *)
Fixpoint insert_by {A : Type} (key : A -> Decimal.t) (x : A) (l : list A) : list A :=
  match l with
  | [] => [x]
  | y :: l' =>
      if Decimal.leb (key x) (key y) then x :: y :: l'
      else y :: insert_by key x l'
  end.

Definition order_by {A : Type} (key : A -> Decimal.t) (l : list A) : list A :=
  foldr (insert_by key) [] l.

(** Rows in ascending order of a Decimal column. *)
Definition ascending {A : Type} (key : A -> Decimal.t) (l : list A) : Prop :=
  StronglySorted (fun a b => Decimal.leb (key a) (key b) = true) l.

(* ================================================================== *)
(** ** Helpers of [create_app] *)

(** [log_event]: one more row in the ROEvent table. *)
Definition log_event (ro_id event_type : string) (old new : option string)
    (db : DB) : DB :=
  with_events (fun es => es ++ [ROEvent.mk ro_id event_type old new]) db.

Definition line_amount (li : LineItem.t) : Decimal.t :=
  let amt := Decimal.mul (or0 (LineItem.qty li)) (or0 (LineItem.unit_price li)) in
  if String.eqb (LineItem.item_type li) "discount"
  then Decimal.neg (Decimal.abs amt)
  else amt.

(** The job tag of an item when it is truthy ([if i.job_id]). *)
Definition truthy_job_id (i : LineItem.t) : option string :=
  match LineItem.job_id i with
  | Some j => if String.eqb j "" then None else Some j
  | None => None
  end.

(** The dict [job_status] of [active_items_for_totals]: job id to status,
    for the jobs whose id tags one of the items. *)
Definition job_status_dict (job_rows : list Job.t) (items : list LineItem.t)
    : gmap string string :=
  let job_ids : gset string := list_to_set (omap truthy_job_id items) in
  if decide (job_ids = ∅) then ∅
  else
    foldl (fun m j => <[Job.id j := Job.status j]> m) ∅
      (filter (fun j => Job.id j ∈ job_ids) job_rows).

Definition active_items_for_totals (job_rows : list Job.t)
    (items : list LineItem.t) : list LineItem.t :=
  let job_status := job_status_dict job_rows items in
  filter (fun i =>
            truthy_job_id i = None
            ∨ job_status !! default "" (LineItem.job_id i) ≠ Some "declined")
         items.


(** [doc.status in ("locked", "paid") or doc.locked_at is not None], the
    guard every mutating path starts with. *)
Definition doc_locked (doc : Document.t) : bool :=
  in_strs (Document.status doc) ["locked"; "paid"]
  || bool_decide (is_Some (Document.locked_at doc)).

(** [LineItem.query.filter_by(document_id=doc_id).all()]. *)
Definition items_of (doc_id : string) (db : DB) : list LineItem.t :=
  filter (fun i => LineItem.document_id i = doc_id) (line_items db).

Section Engine.

(** [TAX_RATE], read from the environment when the process starts. *)
Variable TAX_RATE : Decimal.t.

(** [datetime.isoformat]. *)
Variable isoformat : datetime -> string.

(** The three amounts [recalc_document_totals] stores, from the active
    items: [(subtotal, tax, total)]. *)
Definition totals_of (active_items : list LineItem.t)
    : Decimal.t * Decimal.t * Decimal.t :=
  let subtotal := sum_from_zero (line_amount <$> active_items) in
  let taxable :=
    sum_from_zero
      (line_amount <$>
       filter (fun i => LineItem.taxable i = true
                        ∧ LineItem.item_type i ≠ "discount") active_items) in
  let tax := Decimal.quantize (Decimal.mul taxable TAX_RATE) Decimal.cent in
  let total := Decimal.quantize (Decimal.add subtotal tax) Decimal.cent in
  (Decimal.quantize subtotal Decimal.cent, tax, total).

Definition recalc_document_totals (doc_id : string) (db : DB) : DB :=
  match get Document.id doc_id (docs db) with
  | None => db
  | Some doc =>
      if doc_locked doc then db
      else
        let items := items_of doc_id db in
        let active_items := active_items_for_totals (jobs db) items in
        let '(subtotal, tax, total) := totals_of active_items in
        with_docs (update Document.id doc_id
                     (Document.set_totals subtotal tax total)) db
  end.


(** *** Matrix logic *)

(** [min <= x and (max is None or x <= max)]. *)
Definition in_range (x lo : Decimal.t) (hi : option Decimal.t) : bool :=
  Decimal.geb x lo
  && match hi with
     | None => true
     | Some h => Decimal.leb x h
     end.

Definition labor_tier_matches (hours : Decimal.t) (t : LaborMatrixTier.t) : bool :=
  in_range hours (LaborMatrixTier.min_hours t) (LaborMatrixTier.max_hours t).

Definition get_labor_rate_for_hours (db : DB) (hours : Decimal.t) : Decimal.t :=
  let tiers := order_by LaborMatrixTier.min_hours (labor_tiers db) in
  match tiers with
  | [] => Decimal.mk 11500 (-2)
  | t0 :: _ =>
      match find (labor_tier_matches hours) tiers with
      | Some t => Decimal.quantize (LaborMatrixTier.rate_per_hour t) Decimal.cent
      | None =>
          Decimal.quantize
            (LaborMatrixTier.rate_per_hour (List.last tiers t0)) Decimal.cent
      end
  end.

Definition parts_tier_matches (cost : Decimal.t) (t : PartsMatrixTier.t) : bool :=
  in_range cost (PartsMatrixTier.min_cost t) (PartsMatrixTier.max_cost t).

Definition get_parts_multiplier_for_cost (db : DB) (cost : Decimal.t) : Decimal.t :=
  let tiers := order_by PartsMatrixTier.min_cost (parts_tiers db) in
  match tiers with
  | [] => Decimal.mk 13000 (-4)
  | t0 :: _ =>
      match find (parts_tier_matches cost) tiers with
      | Some t => PartsMatrixTier.multiplier t
      | None => PartsMatrixTier.multiplier (List.last tiers t0)
      end
  end.

(* ------------------------------------------------------------------ *)
(** *** Requests and the database session *)

Record Session := mkSession {
  store : DB;
  saved : DB;
  clock : datetime;
}.

(** What a handler answers: a redirect, possibly after [flash(msg)], the
    JSON body of [share_document], or [abort(code)]. *)
Inductive Response :=
| Redirect (flashed : option string)
| Json
| Abort (code : Z).

(** A handler step: a value to go on with, or the response the handler
    returns at once. *)
Definition M (A : Type) : Type := Session -> (A + Response) * Session.

Definition ret {A : Type} (a : A) : M A := fun s => (inl a, s).

Definition bind {A B : Type} (c : M A) (k : A -> M B) : M B :=
  fun s =>
    match c s with
    | (inl a, s') => k a s'
    | (inr r, s') => (inr r, s')
    end.

Notation "'do' x <- c ; k" := (bind c (fun x => k))
  (at level 10, x name, c at level 100, k at level 200).
Notation "c ;; k" := (bind c (fun _ => k))
  (at level 100, k at level 200, right associativity).

(** [return redirect(...)] in the middle of a handler. *)
Definition respond {A : Type} (r : Response) : M A := fun s => (inr r, s).

(** [abort(code)]: the request ends and the session is rolled back. *)
Definition abort {A : Type} (code : Z) : M A :=
  fun s => (inr (Abort code), mkSession (saved s) (saved s) (clock s)).

Definition query {A : Type} (f : DB -> A) : M A := fun s => (inl (f (store s)), s).

Definition exec (f : DB -> DB) : M unit :=
  fun s => (inl tt, mkSession (f (store s)) (saved s) (clock s)).

(** [db.session.commit()]. *)
Definition commit : M unit :=
  fun s => (inl tt, mkSession (store s) (store s) (clock s)).

(** [datetime.utcnow()]: the clock is read and moves on. *)
Definition utcnow : M datetime :=
  fun s => (inl (clock s), mkSession (store s) (saved s) (clock s + 1)).

Definition when (b : bool) (c : M unit) : M unit := if b then c else ret tt.

(** [Model.query.get_or_404(k)]. *)
Definition get_or_404 {A : Type} (table : DB -> list A) (key : A -> string)
    (k : string) : M A :=
  do row <- query (fun db => get key k (table db));
  match row with
  | Some r => ret r
  | None => abort 404
  end.

(** One request against the database [db], started at time [now]: the
    response and the committed database. *)
Definition run (h : M Response) (db : DB) (now : datetime) : Response * DB :=
  match h (mkSession db db now) with
  | (inl r, s) => (r, saved s)
  | (inr r, s) => (r, saved s)
  end.

(** A new Document row as the handlers create it; the money columns and
    the timestamps take their column defaults. *)
Definition new_document (id ro_id doc_type : string) : Document.t :=
  Document.mk id ro_id doc_type 1 "draft" Decimal.zero_00 Decimal.zero_00
    Decimal.zero_00 None None None.

(** [Document.query.filter_by(ro_id=.., doc_type=.., version=1).first()]. *)
Definition first_doc (ro_id doc_type : string) (db : DB) : option Document.t :=
  find (fun d => String.eqb (Document.ro_id d) ro_id
                 && String.eqb (Document.doc_type d) doc_type
                 && (Document.version d =? 1)) (docs db).



(* ------------------------------------------------------------------ *)
(** *** Repair orders and jobs *)

Definition ro_change_status (ro_id new_status : string) : M Response :=
  do ro <- get_or_404 ros RepairOrder.id ro_id;
  if negb (in_strs new_status
             ["open"; "estimate_sent"; "work_in_progress"; "closed"; "canceled"])
  then respond (Redirect (Some "Invalid status."))
  else
    let old := RepairOrder.status ro in
    exec (with_ros (update RepairOrder.id ro_id (RepairOrder.set_status new_status)));;
    (if String.eqb new_status "closed"
        && bool_decide (RepairOrder.closed_at ro = None)
     then
       do now <- utcnow;
       exec (with_ros (update RepairOrder.id ro_id
                         (RepairOrder.set_closed_at (Some now))))
     else ret tt);;
    when (negb (String.eqb new_status "closed"))
      (exec (with_ros (update RepairOrder.id ro_id
                         (RepairOrder.set_closed_at None))));;
    exec (log_event (RepairOrder.id ro) "ro_status" (Some old) (Some new_status));;
    commit;;
    ret (Redirect None).

(** [Job.query.filter_by(ro_id=..).filter(Job.status != "completed").count()]. *)
Definition remaining_jobs (ro_id : string) (db : DB) : nat :=
  length (filter (fun j => Job.ro_id j = ro_id ∧ Job.status j ≠ "completed")
            (jobs db)).

(** The closing of a repair order whose jobs are all completed, shared by
    [job_set_status] and [job_complete]. *)
Definition close_if_no_job_remains (ro_id : string) : M unit :=
  do remaining <- query (remaining_jobs ro_id);
  match remaining with
  | O =>
      exec (with_ros (update RepairOrder.id ro_id (RepairOrder.set_status "closed")));;
      do now <- utcnow;
      exec (with_ros (update RepairOrder.id ro_id
                        (RepairOrder.set_closed_at (Some now))));;
      exec (log_event ro_id "ro_completed" None (Some (isoformat now)))
  | S _ => ret tt
  end.

Definition job_set_status (job_id new_status : string) : M Response :=
  do job <- get_or_404 jobs Job.id job_id;
  do ro <- get_or_404 ros RepairOrder.id (Job.ro_id job);
  if negb (in_strs new_status
             ["pending"; "approved"; "work_in_progress"; "completed"; "declined"])
  then respond (Redirect (Some "Invalid job status."))
  else
    let old := Job.status job in
    exec (with_jobs (update Job.id job_id (Job.set_status new_status)));;
    (if String.eqb new_status "completed"
        && bool_decide (Job.completed_at job = None)
     then
       do now <- utcnow;
       exec (with_jobs (update Job.id job_id (Job.set_completed_at (Some now))))
     else ret tt);;
    exec (log_event (RepairOrder.id ro) "job_status"
            (Some (Job.title job +:+ ":" +:+ old))
            (Some (Job.title job +:+ ":" +:+ new_status)));;
    when (in_strs new_status ["approved"; "work_in_progress"]
          && in_strs (RepairOrder.status ro) ["open"; "estimate_sent"])
      (exec (with_ros (update RepairOrder.id (RepairOrder.id ro)
                         (RepairOrder.set_status "work_in_progress"))));;
    (if String.eqb new_status "completed"
     then close_if_no_job_remains (RepairOrder.id ro)
     else ret tt);;
    commit;;
    ret (Redirect None).



(* ------------------------------------------------------------------ *)
(** *** Line items *)

(** The form of [add_line_item] after [strip], [lower] and
    [parse_decimal]: a numeric field is [None] when it is absent, empty or
    not a number; [taxable] tells whether the checkbox was sent. *)
Record ItemForm := mkItemForm {
  f_item_type : string;
  f_description : string;
  f_job_id : option string;
  f_qty : option Decimal.t;
  f_taxable : bool;
  f_labor_hours : option Decimal.t;
  f_labor_rate : option Decimal.t;
  f_part_cost : option Decimal.t;
  f_part_price : option Decimal.t;
  f_fee_price : option Decimal.t;
  f_fee_cost : option Decimal.t;
  f_discount_amount : option Decimal.t;
  f_discount_cost : option Decimal.t;
}.

(** What the per-type branches of [add_line_item] settle. *)
Record Priced := mkPriced {
  p_qty : Decimal.t;
  p_unit_price : Decimal.t;
  p_taxable : bool;
  p_hours_in : option Decimal.t;
  p_cost_in : option Decimal.t;
}.

(** The per-type branches of [add_line_item]: the message flashed when a
    required field is missing, or the priced fields. *)
Definition price_item (db : DB) (form : ItemForm) : string + Priced :=
  let qty := default Decimal.one_00 (f_qty form) in
  let taxable := f_taxable form in
  let item_type := f_item_type form in
  if String.eqb item_type "labor" then
    let hours_in := f_labor_hours form in
    let unit_price_in := f_labor_rate form in
    match hours_in with
    | None => inl "Labor requires hours."
    | Some qty =>
        let rate := get_labor_rate_for_hours db qty in
        inr (mkPriced qty (default rate unit_price_in) false hours_in None)
    end
  else if String.eqb item_type "part" then
    let cost_in := f_part_cost form in
    let unit_price_in := f_part_price form in
    match cost_in with
    | None => inl "Parts require cost."
    | Some cost =>
        let multiplier := get_parts_multiplier_for_cost db cost in
        let unit_price :=
          match unit_price_in with
          | None => Decimal.quantize (Decimal.mul cost multiplier) Decimal.cent
          | Some p => p
          end in
        inr (mkPriced qty unit_price true None cost_in)
    end
  else if String.eqb item_type "fee" then
    let unit_price_in := f_fee_price form in
    let cost_in := f_fee_cost form in
    match unit_price_in with
    | None => inl "Fee requires a unit price."
    | Some p => inr (mkPriced qty p taxable None cost_in)
    end
  else if String.eqb item_type "discount" then
    let unit_price_in := f_discount_amount form in
    let cost_in := f_discount_cost form in
    match unit_price_in with
    | None => inl "Discount requires an amount."
    | Some a =>
        inr (mkPriced qty (Decimal.mul (Decimal.abs a) Decimal.minus_one_00)
               false None cost_in)
    end
  else inl "Invalid line item type.".

(** The row [add_line_item] builds from the form and the priced fields. *)
Definition built_item (id doc_id : string) (form : ItemForm) (p : Priced)
    : LineItem.t :=
  LineItem.mk id doc_id (f_job_id form) (f_item_type form)
    (f_description form) (Some (p_qty p)) (Some (p_unit_price p))
    (p_taxable p) (p_hours_in p) (p_cost_in p).

Definition add_line_item (doc_id : string) (form : ItemForm) : M Response :=
  do doc <- get_or_404 docs Document.id doc_id;
  if doc_locked doc then respond (Redirect (Some "Document is locked."))
  else
    do priced <- query (fun db => price_item db form);
    match priced with
    | inl msg => respond (Redirect (Some msg))
    | inr p =>
        do id <- query (fun db => new_id (LineItem.id <$> line_items db));
        let li := built_item id (Document.id doc) form p in
        exec (with_line_items (fun l => l ++ [li]));;
        commit;;
        exec (recalc_document_totals doc_id);;
        commit;;
        ret (Redirect None)
    end.

Definition delete_item (item_id : string) : M Response :=
  do li <- get_or_404 line_items LineItem.id item_id;
  do doc <- get_or_404 docs Document.id (LineItem.document_id li);
  if doc_locked doc then respond (Redirect (Some "Document is locked."))
  else
    exec (with_line_items (filter (fun i => LineItem.id i ≠ item_id)));;
    commit;;
    exec (recalc_document_totals (Document.id doc));;
    commit;;
    ret (Redirect None).

(** The form of [edit_item] after [strip] and [parse_decimal].  The text
    tests [request.form.get("cost") == "0"] and
    [request.form.get("labor_hours") == "0"] add nothing: "0" parses to a
    Decimal, so the field is not [None] then. *)
Record EditForm := mkEditForm {
  e_description : option string;
  e_qty : option Decimal.t;
  e_unit_price : option Decimal.t;
  e_taxable : bool;
  e_cost : option Decimal.t;
  e_labor_hours : option Decimal.t;
  e_job_id : option string;
}.

(** The assignments of [edit_item] on the row ([e_description] is the
    submitted text when it is not empty). *)
Definition edited_item (form : EditForm) (li : LineItem.t) : LineItem.t :=
  LineItem.mk (LineItem.id li) (LineItem.document_id li)
    (e_job_id form)
    (LineItem.item_type li)
    (default (LineItem.description li) (e_description form))
    (match e_qty form with Some q => Some q | None => LineItem.qty li end)
    (match e_unit_price form with Some p => Some p | None => LineItem.unit_price li end)
    (e_taxable form)
    (match e_labor_hours form with Some h => Some h | None => LineItem.labor_hours li end)
    (match e_cost form with Some c => Some c | None => LineItem.cost li end).

Definition edit_item (item_id : string) (form : EditForm) : M Response :=
  do li <- get_or_404 line_items LineItem.id item_id;
  do doc <- get_or_404 docs Document.id (LineItem.document_id li);
  if doc_locked doc then respond (Redirect (Some "Document is locked."))
  else
    exec (with_line_items (update LineItem.id item_id (edited_item form)));;
    commit;;
    exec (recalc_document_totals (Document.id doc));;
    commit;;
    ret (Redirect (Some "Line item updated.")).

(* ------------------------------------------------------------------ *)
(** *** Document actions *)

(** The cascade of [lock_document] and [share_document]: an open repair
    order becomes [estimate_sent]. *)
Definition mark_estimate_sent (ro : RepairOrder.t) : M unit :=
  when (String.eqb (RepairOrder.status ro) "open")
    (exec (with_ros (update RepairOrder.id (RepairOrder.id ro)
                       (RepairOrder.set_status "estimate_sent")))).

Definition lock_document (doc_id : string) : M Response :=
  do doc <- get_or_404 docs Document.id doc_id;
  exec (recalc_document_totals doc_id);;
  (if String.eqb (Document.doc_type doc) "estimate"
   then
     do now <- utcnow;
     exec (with_docs (update Document.id doc_id (Document.set_sent_at (Some now))));;
     exec (with_docs (update Document.id doc_id (Document.set_status "sent")));;
     exec (log_event (Document.ro_id doc) "estimate_sent" None (Some (Document.id doc)));;
     do ro <- get_or_404 ros RepairOrder.id (Document.ro_id doc);
     mark_estimate_sent ro
   else
     exec (with_docs (update Document.id doc_id (Document.set_status "locked"))));;
  do now <- utcnow;
  exec (with_docs (update Document.id doc_id (Document.set_locked_at (Some now))));;
  commit;;
  ret (Redirect None).


(** The copy of an estimate item that [approve_estimate] adds to the
    invoice. *)
Definition copied_item (id invoice_id : string) (i : LineItem.t) : LineItem.t :=
  LineItem.mk id invoice_id (LineItem.job_id i) (LineItem.item_type i)
    (LineItem.description i) (LineItem.qty i) (LineItem.unit_price i)
    (LineItem.taxable i) (LineItem.labor_hours i) (LineItem.cost i).

Definition copy_items (invoice_id : string) (src : list LineItem.t) (db : DB) : DB :=
  foldl (fun db i =>
           with_line_items
             (fun l => l ++ [copied_item (new_id (LineItem.id <$> l)) invoice_id i])
             db)
        db src.

Definition approve_estimate (doc_id : string) : M Response :=
  do est <- get_or_404 docs Document.id doc_id;
  if negb (String.eqb (Document.doc_type est) "estimate") then abort 400
  else
    exec (with_docs (update Document.id doc_id (Document.set_status "approved")));;
    exec (log_event (Document.ro_id est) "approved" None (Some (Document.id est)));;
    do ro <- get_or_404 ros RepairOrder.id (Document.ro_id est);
    exec (with_ros (update RepairOrder.id (RepairOrder.id ro)
                      (RepairOrder.set_status "work_in_progress")));;
    do found <- query (first_doc (RepairOrder.id ro) "invoice");
    do invoice <-
      match found with
      | Some inv => ret inv
      | None =>
          do id <- query (fun db => new_id (Document.id <$> docs db));
          let inv := new_document id (RepairOrder.id ro) "invoice" in
          exec (with_docs (fun ds => ds ++ [inv]));;
          ret inv
      end;
    if doc_locked invoice then
      commit;;
      ret (Redirect None)
    else
      exec (with_line_items
              (filter (fun i => LineItem.document_id i ≠ Document.id invoice)));;
      do src <- query (items_of (Document.id est));
      exec (copy_items (Document.id invoice) src);;
      commit;;
      exec (recalc_document_totals (Document.id invoice));;
      commit;;
      ret (Redirect None).

Definition decline_estimate (doc_id : string) : M Response :=
  do doc <- get_or_404 docs Document.id doc_id;
  if negb (String.eqb (Document.doc_type doc) "estimate") then abort 400
  else
    exec (with_docs (update Document.id doc_id (Document.set_status "declined")));;
    exec (log_event (Document.ro_id doc) "declined" None (Some (Document.id doc)));;
    commit;;
    ret (Redirect None).

Definition mark_invoice_paid (doc_id : string) : M Response :=
  do doc <- get_or_404 docs Document.id doc_id;
  if negb (String.eqb (Document.doc_type doc) "invoice") then abort 400
  else
    exec (with_docs (update Document.id doc_id (Document.set_status "paid")));;
    exec (log_event (Document.ro_id doc) "paid" None (Some (Document.id doc)));;
    commit;;
    ret (Redirect None).

(** [Document.query.filter_by(share_token=token).first_or_404()]. *)
Definition doc_by_token_or_404 (token : string) : M Document.t :=
  do found <- query (fun db =>
                find (fun d => bool_decide (Document.share_token d = Some token))
                     (docs db));
  match found with
  | Some d => ret d
  | None => abort 404
  end.

Definition share_job_status (token job_id new_status : string) : M Response :=
  do doc <- doc_by_token_or_404 token;
  if negb (String.eqb (Document.doc_type doc) "estimate") then abort 400
  else
    do job <- get_or_404 jobs Job.id job_id;
    if negb (String.eqb (Job.ro_id job) (Document.ro_id doc)) then abort 404
    else if negb (in_strs new_status ["approved"; "declined"]) then abort 400
    else
      let old := Job.status job in
      exec (with_jobs (update Job.id job_id (Job.set_status new_status)));;
      exec (log_event (Document.ro_id doc) "job_status"
              (Some (Job.title job +:+ ":" +:+ old))
              (Some (Job.title job +:+ ":" +:+ new_status)));;
      (if String.eqb new_status "approved"
       then
         do ro <- get_or_404 ros RepairOrder.id (Job.ro_id job);
         when (in_strs (RepairOrder.status ro) ["open"; "estimate_sent"])
           (exec (with_ros (update RepairOrder.id (RepairOrder.id ro)
                              (RepairOrder.set_status "work_in_progress"))))
       else ret tt);;
      commit;;
      ret (Redirect None).

(* ------------------------------------------------------------------ *)
(** *** The lifecycle state machine and its audit trail *)









(* ------------------------------------------------------------------ *)
(** *** Archiving, renaming, job totals and the matrix settings *)

(** [ro.deleted_at = v]. *)
Definition ro_set_deleted_at (v : option datetime) (r : RepairOrder.t)
    : RepairOrder.t :=
  RepairOrder.mk (RepairOrder.id r) (RepairOrder.status r)
    (RepairOrder.closed_at r) v.

Definition ro_delete (ro_id : string) : M Response :=
  do ro <- get_or_404 ros RepairOrder.id ro_id;
  (if bool_decide (RepairOrder.deleted_at ro = None)
   then
     do now <- utcnow;
     exec (with_ros (update RepairOrder.id ro_id (ro_set_deleted_at (Some now))));;
     exec (log_event (RepairOrder.id ro) "ro_deleted" None (Some (isoformat now)));;
     commit
   else ret tt);;
  ret (Redirect (Some "Repair order archived.")).

(** [job.title = v]. *)
Definition job_set_title (v : string) (j : Job.t) : Job.t :=
  Job.mk (Job.id j) (Job.ro_id j) v (Job.status j) (Job.completed_at j)
    (Job.tech_id j).

(** [title] is the form field after [strip]. *)
Definition job_edit (job_id title : string) : M Response :=
  do job <- get_or_404 jobs Job.id job_id;
  do ro <- get_or_404 ros RepairOrder.id (Job.ro_id job);
  if String.eqb title "" then respond (Redirect (Some "Job name is required."))
  else
    let old := Job.title job in
    exec (with_jobs (update Job.id job_id (job_set_title title)));;
    exec (log_event (RepairOrder.id ro) "job_renamed" (Some old) (Some title));;
    commit;;
    ret (Redirect None).



(** [x or d] on a parsed field: a missing and a zero Decimal both give
    [d]. *)
Definition or_default (x : option Decimal.t) (d : Decimal.t) : Decimal.t :=
  match x with
  | Some v => if Decimal.truthy v then v else d
  | None => d
  end.

Definition with_labor_tiers
    (f : list LaborMatrixTier.t -> list LaborMatrixTier.t) (db : DB) : DB :=
  mkDB (ros db) (jobs db) (docs db) (line_items db) (events db)
       (f (labor_tiers db)) (parts_tiers db) (technicians db).

Definition with_parts_tiers
    (f : list PartsMatrixTier.t -> list PartsMatrixTier.t) (db : DB) : DB :=
  mkDB (ros db) (jobs db) (docs db) (line_items db) (events db)
       (labor_tiers db) (f (parts_tiers db)) (technicians db).

(** The three fields are the form fields after [parse_decimal]. *)
Definition matrices_labor_add (min_hours max_hours rate_per_hour : option Decimal.t)
    : M Response :=
  let min_hours := or_default min_hours Decimal.zero_00 in
  let rate := or_default rate_per_hour (Decimal.mk 11500 (-2)) in
  do id <- query (fun db => new_id (LaborMatrixTier.id <$> labor_tiers db));
  exec (with_labor_tiers
          (fun l => l ++ [LaborMatrixTier.mk id min_hours max_hours rate]));;
  commit;;
  ret (Redirect None).

Definition matrices_parts_add (min_cost max_cost multiplier : option Decimal.t)
    : M Response :=
  let min_cost := or_default min_cost Decimal.zero_00 in
  let mult := or_default multiplier (Decimal.mk 13000 (-4)) in
  do id <- query (fun db => new_id (PartsMatrixTier.id <$> parts_tiers db));
  exec (with_parts_tiers
          (fun l => l ++ [PartsMatrixTier.mk id min_cost max_cost mult]));;
  commit;;
  ret (Redirect None).

Definition matrices_delete_tier (tier_id : string) : M Response :=
  do t <- query (fun db => get LaborMatrixTier.id tier_id (labor_tiers db));
  match t with
  | Some _ =>
      exec (with_labor_tiers (filter (fun t => LaborMatrixTier.id t ≠ tier_id)));;
      commit;;
      ret (Redirect None)
  | None =>
      do t2 <- get_or_404 parts_tiers PartsMatrixTier.id tier_id;
      exec (with_parts_tiers (filter (fun t => PartsMatrixTier.id t ≠ tier_id)));;
      commit;;
      ret (Redirect None)
  end.

End Engine.







(* ================================================================== *)
(** ** A sample shop *)

Module Sample.

(** Amounts in cents and in hundredths of an hour. *)
Definition money (cents : Z) : Decimal.t := Decimal.mk cents (-2).

(** [TAX_RATE=0.07]. *)
Definition tax_rate : Decimal.t := Decimal.mk 7 (-2).

(** A stand-in for [isoformat]: the reading printed in decimal. *)
Definition iso (d : datetime) : string := pretty d.

Definition ro1 : RepairOrder.t := RepairOrder.mk "ro-1" "open" None None.

Definition job1 : Job.t := Job.mk "job-1" "ro-1" "Brakes" "pending" None None.
Definition job2 : Job.t := Job.mk "job-2" "ro-1" "Wipers" "declined" None None.

Definition est1 : Document.t :=
  Document.mk "est-1" "ro-1" "estimate" 1 "draft"
    Decimal.zero_00 Decimal.zero_00 Decimal.zero_00 None None None.

Definition inv1 : Document.t :=
  Document.mk "inv-1" "ro-1" "invoice" 1 "locked"
    (money 5000) (money 0) (money 5000) (Some 17) None None.

(** 1.25 h of labor at 85.50, not taxable. *)
Definition labor_item : LineItem.t :=
  LineItem.mk "li-1" "est-1" (Some "job-1") "labor" "Replace pads"
    (Some (money 125)) (Some (money 8550)) false (Some (money 125)) None.

(** One part at 3.00, taxable. *)
Definition part_item : LineItem.t :=
  LineItem.mk "li-2" "est-1" (Some "job-1") "part" "Clips"
    (Some (money 100)) (Some (money 300)) true None (Some (money 200)).



(** The item the locked invoice holds. *)
Definition invoiced_item : LineItem.t :=
  LineItem.mk "li-9" "inv-1" None "fee" "Diagnosis"
    (Some (money 100)) (Some (money 5000)) false None None.

(** Labor tiers [(0, 2, 100/hr)] and [(2, none, 85/hr)], entered in the
    reverse order. *)
Definition tier_low : LaborMatrixTier.t :=
  LaborMatrixTier.mk "lt-1" (money 0) (Some (money 200)) (money 10000).
Definition tier_high : LaborMatrixTier.t :=
  LaborMatrixTier.mk "lt-2" (money 200) None (money 8500).

Definition shop : DB :=
  mkDB [ro1] [job1; job2] [est1; inv1]
       [labor_item; part_item; invoiced_item]
       [] [tier_high; tier_low] [] [].



(** A labor request: 3 hours, the taxable box ticked, no rate given. *)
Definition labor_form : ItemForm :=
  mkItemForm "labor" "Diagnose noise" (Some "job-1") None true
    (Some (money 300)) None None None None None None None.


(** An edit that sets the unit price to 25.00 and nothing else. *)
Definition price_edit : EditForm :=
  mkEditForm None None (Some (money 2500)) false None None None.

(** Parts tiers [(0, 100, 1.5)] and [(100, none, 1.3)], entered in the
    reverse order. *)
Definition parts_tier_low : PartsMatrixTier.t :=
  PartsMatrixTier.mk "pt-1" (money 0) (Some (money 10000)) (Decimal.mk 15000 (-4)).
Definition parts_tier_high : PartsMatrixTier.t :=
  PartsMatrixTier.mk "pt-2" (money 10000) None (Decimal.mk 13000 (-4)).

(** The shop with the parts matrix configured. *)
Definition matrix_shop : DB :=
  with_parts_tiers (fun _ => [parts_tier_high; parts_tier_low]) shop.



(** An edit that fills in nothing. *)
Definition empty_edit : EditForm :=
  mkEditForm None None None false None None None.

(** The shop when the brake job is the only job of the repair order. *)
Definition solo_shop : DB := with_jobs (fun _ => [job1]) shop.

(** The estimate once it has been shared, and the shop holding it. *)
Definition shared_est : Document.t :=
  Document.set_share_token (Some "tok-1") est1.
Definition shared_shop : DB := with_docs (fun _ => [shared_est; inv1]) shop.





End Sample.

(* ================================================================== *)
(** ** Decimal facts *)

Lemma pow10_pos k : 0 <= k -> 0 < Decimal.pow10 k.
Proof. intros Hk. unfold Decimal.pow10. apply Z.pow_pos_nonneg; lia. Qed.

Lemma pow10_add j k : 0 <= j -> 0 <= k ->
  Decimal.pow10 (j + k) = Decimal.pow10 j * Decimal.pow10 k.
Proof. intros. unfold Decimal.pow10. by apply Z.pow_add_r. Qed.

Lemma scaled_lower a e e' :
  e' <= e -> e <= Decimal.expo a ->
  Decimal.scaled a e' = Decimal.scaled a e * Decimal.pow10 (e - e').
Proof.
  intros H1 H2. unfold Decimal.scaled.
  replace (Decimal.expo a - e') with ((Decimal.expo a - e) + (e - e')) by lia.
  rewrite pow10_add by lia. lia.
Qed.

Lemma compare_at a b e :
  e <= Decimal.expo a -> e <= Decimal.expo b ->
  Decimal.compare a b = Z.compare (Decimal.scaled a e) (Decimal.scaled b e).
Proof.
  intros Ha Hb. unfold Decimal.compare.
  set (m := Z.min (Decimal.expo a) (Decimal.expo b)).
  rewrite (scaled_lower a m e), (scaled_lower b m e) by lia.
  assert (Hp : 0 < Decimal.pow10 (m - e)) by (apply pow10_pos; lia).
  destruct (Z.compare_spec (Decimal.scaled a m) (Decimal.scaled b m));
    destruct (Z.compare_spec (Decimal.scaled a m * Decimal.pow10 (m - e))
                (Decimal.scaled b m * Decimal.pow10 (m - e)));
    try reflexivity; nia.
Qed.

Lemma leb_at a b e :
  e <= Decimal.expo a -> e <= Decimal.expo b ->
  Decimal.leb a b = true <-> Decimal.scaled a e <= Decimal.scaled b e.
Proof.
  intros Ha Hb. unfold Decimal.leb. rewrite (compare_at a b e Ha Hb).
  unfold Z.le. destruct (_ ?= _); split; congruence.
Qed.

Lemma leb_total a b : Decimal.leb a b = false -> Decimal.leb b a = true.
Proof.
  set (e := Z.min (Decimal.expo a) (Decimal.expo b)).
  intros H. apply (leb_at b a e); [lia..|].
  destruct (Decimal.leb a b) eqn:E; [done|].
  assert (~ Decimal.scaled a e <= Decimal.scaled b e).
  { intros Hle. apply (leb_at a b e) in Hle; [congruence|lia..]. }
  lia.
Qed.

Lemma leb_trans a b c :
  Decimal.leb a b = true -> Decimal.leb b c = true -> Decimal.leb a c = true.
Proof.
  set (e := Z.min (Decimal.expo a) (Z.min (Decimal.expo b) (Decimal.expo c))).
  intros H1 H2.
  apply (leb_at a b e) in H1; [|lia..]. apply (leb_at b c e) in H2; [|lia..].
  apply (leb_at a c e); lia.
Qed.


(* ================================================================== *)
(** ** Rounding and tables *)





Lemma get_update {A} (key : A -> string) (f : A -> A) k k' rows :
  (forall r, key (f r) = key r) ->
  get key k (update key k' f rows)
  = (fun r => if String.eqb (key r) k' then f r else r) <$> get key k rows.
Proof.
  intros Hkey. unfold get, update. induction rows as [|r rows IH]; simpl; [done|].
  destruct (String.eqb (key r) k') eqn:E1.
  - rewrite Hkey. destruct (String.eqb (key r) k); [simpl; by rewrite E1 | apply IH].
  - destruct (String.eqb (key r) k); [simpl; by rewrite E1 | apply IH].
Qed.

Lemma get_key {A} (key : A -> string) k rows r :
  get key k rows = Some r -> key r = k.
Proof.
  unfold get. intros H. apply find_some in H as [_ H]. by apply String.eqb_eq.
Qed.

Lemma update_update_same {A} (key : A -> string) k (f : A -> A) rows :
  (forall r, key (f r) = key r) -> (forall r, f (f r) = f r) ->
  update key k f (update key k f rows) = update key k f rows.
Proof.
  intros Hk Hf. unfold update. rewrite map_map. apply map_ext. intros r.
  destruct (String.eqb (key r) k) eqn:E; [|by rewrite E].
  by rewrite Hk, E, Hf.
Qed.




Ltac step_handler :=
  cbv [run bind get_or_404 query respond abort exec commit ret when utcnow
       store saved clock].

(* ================================================================== *)
(** ** Recalculation and the lock guard *)

Section Recalc.

Variable TAX_RATE : Decimal.t.

Lemma doc_locked_set_totals s x t d :
  doc_locked (Document.set_totals s x t d) = doc_locked d.
Proof. reflexivity. Qed.

Lemma recalc_unlocked db doc_id doc :
  get Document.id doc_id (docs db) = Some doc ->
  doc_locked doc = false ->
  recalc_document_totals TAX_RATE doc_id db
  = let '(s, x, t) :=
      totals_of TAX_RATE (active_items_for_totals (jobs db) (items_of doc_id db)) in
    with_docs (update Document.id doc_id (Document.set_totals s x t)) db.
Proof. intros Hg Hl. unfold recalc_document_totals. by rewrite Hg, Hl. Qed.

Lemma recalc_locked db doc_id doc :
  get Document.id doc_id (docs db) = Some doc ->
  doc_locked doc = true ->
  recalc_document_totals TAX_RATE doc_id db = db.
Proof. intros Hg Hl. unfold recalc_document_totals. by rewrite Hg, Hl. Qed.

Lemma recalc_missing db doc_id :
  get Document.id doc_id (docs db) = None ->
  recalc_document_totals TAX_RATE doc_id db = db.
Proof. intros Hg. unfold recalc_document_totals. by rewrite Hg. Qed.

(** C8. Recalculating the totals of a document twice in a row, with the
    line items, the jobs and the tax rate untouched in between, leaves the
    database as the first run left it: subtotal, tax and total do not
    drift. *)
Theorem recalc_idempotent db doc_id :
  recalc_document_totals TAX_RATE doc_id (recalc_document_totals TAX_RATE doc_id db)
  = recalc_document_totals TAX_RATE doc_id db.
Proof.
  destruct (get Document.id doc_id (docs db)) as [doc|] eqn:Hg.
  2: { by rewrite !(recalc_missing db doc_id Hg). }
  destruct (doc_locked doc) eqn:Hl.
  { by rewrite !(recalc_locked db doc_id doc Hg Hl). }
  rewrite (recalc_unlocked db doc_id doc Hg Hl).
  destruct (totals_of _ _) as [[s x] t] eqn:Ht.
  set (db' := with_docs _ db).
  assert (Hg' : get Document.id doc_id (docs db') = Some (Document.set_totals s x t doc)).
  { unfold db'. simpl. rewrite get_update by done. rewrite Hg. simpl.
    apply get_key in Hg. rewrite Hg, String.eqb_refl. done. }
  rewrite (recalc_unlocked db' doc_id _ Hg') by done.
  change (items_of doc_id db') with (items_of doc_id db).
  change (jobs db') with (jobs db). rewrite Ht.
  unfold db', with_docs; simpl. f_equal.
  by apply update_update_same.
Qed.


(** C1. On a document that is locked, paid or stamped with a lock time,
    [recalc_document_totals] does nothing, and adding an item to it,
    deleting one of its items or editing one is turned down with the
    message "Document is locked."; in each case the database, and so the
    stored totals and the line items, stay as they were. *)
Theorem locked_document_frozen db now doc_id doc :
  get Document.id doc_id (docs db) = Some doc ->
  doc_locked doc = true ->
  recalc_document_totals TAX_RATE doc_id db = db
  /\ (forall form,
        run (add_line_item TAX_RATE doc_id form) db now
        = (Redirect (Some "Document is locked."), db))
  /\ (forall item_id li,
        get LineItem.id item_id (line_items db) = Some li ->
        LineItem.document_id li = doc_id ->
        run (delete_item TAX_RATE item_id) db now
        = (Redirect (Some "Document is locked."), db)
        /\ forall form,
             run (edit_item TAX_RATE item_id form) db now
             = (Redirect (Some "Document is locked."), db)).
Proof.
  intros Hg Hl. split; [by apply (recalc_locked db doc_id doc)|]. split.
  - intros form. unfold add_line_item. step_handler. by rewrite Hg, Hl.
  - intros item_id li Hli Hdoc. split; [|intros form].
    + unfold delete_item. step_handler. rewrite Hli. cbn. by rewrite Hdoc, Hg, Hl.
    + unfold edit_item. step_handler. rewrite Hli. cbn. by rewrite Hdoc, Hg, Hl.
Qed.

End Recalc.

(* ================================================================== *)
(** ** Adding a line item *)

Section AddItem.

Variable TAX_RATE : Decimal.t.

Lemma recalc_line_items db doc_id :
  line_items (recalc_document_totals TAX_RATE doc_id db) = line_items db.
Proof.
  unfold recalc_document_totals. destruct (get _ _ _) as [doc|]; [|done].
  destruct (doc_locked doc); [done|]. by destruct (totals_of _ _) as [[? ?] ?].
Qed.



End AddItem.

(* ================================================================== *)
(** ** Totals and discounts *)

Section Totals.

Variable TAX_RATE : Decimal.t.



Lemma edit_item_unlocked db now item_id li doc form :
  get LineItem.id item_id (line_items db) = Some li ->
  get Document.id (LineItem.document_id li) (docs db) = Some doc ->
  doc_locked doc = false ->
  run (edit_item TAX_RATE item_id form) db now
  = (Redirect (Some "Line item updated."),
     recalc_document_totals TAX_RATE (LineItem.document_id li)
       (with_line_items (update LineItem.id item_id (edited_item form)) db)).
Proof.
  intros Hli Hg Hl. unfold edit_item. step_handler. rewrite Hli. cbn.
  rewrite Hg, Hl. by rewrite (get_key _ _ _ _ Hg).
Qed.



End Totals.

Lemma insert_by_perm {A} (key : A -> Decimal.t) x l :
  insert_by key x l ≡ₚ x :: l.
Proof.
  induction l as [|y l IH]; cbn; [done|].
  destruct (Decimal.leb (key x) (key y)); [done|].
  rewrite IH. apply Permutation_swap.
Qed.

Lemma order_by_perm {A} (key : A -> Decimal.t) l : order_by key l ≡ₚ l.
Proof.
  induction l as [|x l IH]; cbn; [done|].
  rewrite insert_by_perm. by rewrite IH.
Qed.

Lemma insert_by_ascending {A} (key : A -> Decimal.t) x l :
  ascending key l -> ascending key (insert_by key x l).
Proof.
  unfold ascending. induction 1 as [|y l Hs IH Hall]; cbn.
  - constructor; constructor.
  - destruct (Decimal.leb (key x) (key y)) eqn:E.
    + constructor; [by constructor|]. constructor; [done|].
      eapply Forall_impl; [exact Hall|]. cbn. intros z Hz.
      by apply (leb_trans _ (key y)).
    + constructor; [done|]. rewrite insert_by_perm. constructor; [|done].
      by apply leb_total.
Qed.

Lemma order_by_ascending {A} (key : A -> Decimal.t) l :
  ascending key (order_by key l).
Proof.
  induction l as [|x l IH]; cbn; [constructor|]. by apply insert_by_ascending.
Qed.

Lemma find_first {A} (p : A -> bool) before t after :
  Forall (fun u => p u = false) before -> p t = true ->
  find p (before ++ t :: after) = Some t.
Proof.
  induction 1 as [|u before Hu _ IH]; intros Ht; cbn; [by rewrite Ht|].
  rewrite Hu. by apply IH.
Qed.

Lemma find_no_match {A} (p : A -> bool) l :
  Forall (fun u => p u = false) l -> find p l = None.
Proof. induction 1 as [|u l Hu _ IH]; cbn; [done|]. by rewrite Hu. Qed.

Lemma last_default {A} (l : list A) x d : last l = Some x -> List.last l d = x.
Proof.
  induction l as [|y l IH]; [done|]. destruct l as [|z l]; cbn in *; [congruence|].
  exact IH.
Qed.

(* ================================================================== *)
(** ** The labor matrix *)

Section LaborRate.


End LaborRate.



Lemma get_none {A} (key : A -> string) k rows :
  k ∉ key <$> rows -> get key k rows = None.
Proof.
  unfold get. induction rows as [|r rows IH]; cbn; [done|]. intros Hk.
  rewrite not_elem_of_cons in Hk. destruct Hk as [Hne Hk].
  destruct (String.eqb_spec (key r) k); [congruence|]. by apply IH.
Qed.










(* ================================================================== *)
(** ** Declined and deleted jobs *)

Section Jobs.

Variable TAX_RATE : Decimal.t.



End Jobs.


Lemma get_primary_key {A} (key : A -> string) rows r :
  NoDup (key <$> rows) -> r ∈ rows -> get key (key r) rows = Some r.
Proof.
  unfold get. induction rows as [|x rows IH]; intros Hnd Hin; [by apply elem_of_nil in Hin|].
  rewrite fmap_cons in Hnd. apply NoDup_cons in Hnd as [Hx Hnd].
  cbn [find]. apply elem_of_cons in Hin as [->|Hin]; [by rewrite String.eqb_refl|].
  destruct (String.eqb_spec (key x) (key r)) as [E|_]; [|by apply IH].
  exfalso. apply Hx. rewrite E. apply list_elem_of_fmap. eauto.
Qed.

Lemma find_update {A} (key : A -> string) (p : A -> bool) k (f : A -> A) rows :
  (forall r, p (f r) = p r) ->
  find p (update key k f rows)
  = (fun r => if String.eqb (key r) k then f r else r) <$> find p rows.
Proof.
  intros Hp. unfold update. induction rows as [|r rows IH]; cbn; [done|].
  destruct (String.eqb (key r) k) eqn:E.
  - rewrite Hp. destruct (p r); [cbn; by rewrite E | exact IH].
  - destruct (p r); [cbn; by rewrite E | exact IH].
Qed.

(* ================================================================== *)
(** ** Approving an estimate *)

Section Approval.

Variable TAX_RATE : Decimal.t.

Lemma approve_estimate_promotion_skipped db now doc_id est ro inv :
  get Document.id doc_id (docs db) = Some est ->
  Document.doc_type est = "estimate" ->
  get RepairOrder.id (Document.ro_id est) (ros db) = Some ro ->
  first_doc (RepairOrder.id ro) "invoice" db = Some inv ->
  String.eqb (Document.id inv) doc_id = false ->
  doc_locked inv = true ->
  run (approve_estimate TAX_RATE doc_id) db now
  = (Redirect None,
     with_ros (update RepairOrder.id (RepairOrder.id ro)
                 (RepairOrder.set_status "work_in_progress"))
       (log_event (Document.ro_id est) "approved" None (Some (Document.id est))
          (with_docs (update Document.id doc_id (Document.set_status "approved"))
             db))).
Proof.
  intros Hest Hty Hro Hinv Hne Hlock. unfold first_doc in Hinv.
  unfold approve_estimate. step_handler. rewrite Hest, Hty, String.eqb_refl.
  cbn [negb]. step_handler.
  cbn [ros docs line_items log_event with_events with_docs with_ros].
  rewrite Hro. unfold first_doc.
  cbn [ros docs line_items log_event with_events with_docs with_ros].
  rewrite find_update by done. rewrite Hinv. cbn [fmap option_fmap option_map].
  by rewrite Hne, Hlock.
Qed.

(** C6. Approving an estimate whose invoice is locked, paid or stamped
    with a lock time skips the promotion: the line items and the invoice
    row, totals included, stay as they were, while the estimate becomes
    [approved] and the repair order [work_in_progress]. *)
Theorem approve_with_locked_invoice db now doc_id est ro inv :
  NoDup (Document.id <$> docs db) ->
  get Document.id doc_id (docs db) = Some est ->
  Document.doc_type est = "estimate" ->
  get RepairOrder.id (Document.ro_id est) (ros db) = Some ro ->
  first_doc (RepairOrder.id ro) "invoice" db = Some inv ->
  doc_locked inv = true ->
  let out := run (approve_estimate TAX_RATE doc_id) db now in
  out.1 = Redirect None
  /\ line_items out.2 = line_items db
  /\ get Document.id (Document.id inv) (docs out.2) = Some inv
  /\ (exists est',
        get Document.id doc_id (docs out.2) = Some est'
        /\ Document.status est' = "approved")
  /\ (exists ro',
        get RepairOrder.id (RepairOrder.id ro) (ros out.2) = Some ro'
        /\ RepairOrder.status ro' = "work_in_progress").
Proof.
  intros Hnd Hest Hty Hro Hinv Hlock out.
  assert (Hin : inv ∈ docs db).
  { unfold first_doc in Hinv. apply find_some in Hinv as [Hin _]. by apply list_elem_of_In. }
  assert (Hinv_ty : Document.doc_type inv = "invoice").
  { unfold first_doc in Hinv. apply find_some in Hinv as [_ Hp].
    apply andb_true_iff in Hp as [Hp _]. apply andb_true_iff in Hp as [_ Hp].
    by apply String.eqb_eq. }
  pose proof (get_primary_key Document.id (docs db) inv Hnd Hin) as Hget.
  assert (Hne : String.eqb (Document.id inv) doc_id = false).
  { apply String.eqb_neq. intros E.
    rewrite E, Hest in Hget. injection Hget as ->. congruence. }
  subst out.
  rewrite (approve_estimate_promotion_skipped db now doc_id est ro inv)
    by done.
  cbn [fst snd ros docs line_items log_event with_events with_docs with_ros].
  split; [done|]. split; [done|]. split.
  { rewrite get_update by done. rewrite Hget. cbn. by rewrite Hne. }
  split.
  - rewrite get_update by done. rewrite Hest. cbn.
    rewrite (get_key _ _ _ _ Hest), String.eqb_refl. by eexists.
  - rewrite get_update by done.
    pose proof (get_key _ _ _ _ Hro) as Hk.
    assert (Hro' : get RepairOrder.id (RepairOrder.id ro) (ros db) = Some ro).
    { unfold get in *. apply find_some in Hro as Hx. destruct Hx as [_ Hx].
      apply String.eqb_eq in Hx. by rewrite Hx. }
    rewrite Hro'. cbn. rewrite String.eqb_refl. by eexists.
Qed.

End Approval.

Ltac norm_db :=
  cbn [ros jobs docs line_items events technicians labor_tiers parts_tiers
       log_event with_events with_docs with_ros with_jobs with_line_items
       with_technicians fst snd].


(* ================================================================== *)
(** ** The audit trail *)

Section Audit.

Variable TAX_RATE : Decimal.t.
Variable isoformat : datetime -> string.














Lemma get_update_found {A} (key : A -> string) (f : A -> A) k rows r :
  (forall r, key (f r) = key r) ->
  get key k rows = Some r ->
  get key k (update key k f rows) = Some (f r).
Proof.
  intros Hkey Hg. rewrite get_update by done. rewrite Hg. cbn.
  by rewrite (get_key _ _ _ _ Hg), String.eqb_refl.
Qed.










End Audit.

(* ================================================================== *)
(** ** The sample shop: instances and counterexamples *)

Import Sample.


(** The locked invoice of the sample shop is frozen. *)
Lemma locked_document_frozen_witness :
  get Document.id "inv-1" (docs shop) = Some inv1
  /\ doc_locked inv1 = true
  /\ recalc_document_totals tax_rate "inv-1" shop = shop
  /\ run (add_line_item tax_rate "inv-1" labor_form) shop 100
     = (Redirect (Some "Document is locked."), shop)
  /\ run (delete_item tax_rate "li-9") shop 100
     = (Redirect (Some "Document is locked."), shop)
  /\ run (edit_item tax_rate "li-9" price_edit) shop 100
     = (Redirect (Some "Document is locked."), shop).
Proof.
  split; [reflexivity|]. split; [reflexivity|].
  destruct (locked_document_frozen tax_rate shop 100 "inv-1" inv1 eq_refl eq_refl)
    as (Hrecalc & Hadd & Hitem).
  split; [exact Hrecalc|]. split; [apply Hadd|].
  destruct (Hitem "li-9" invoiced_item eq_refl eq_refl) as [Hdel Hedit].
  split; [exact Hdel | apply Hedit].
Defined.




(** Approving the estimate of the sample shop, whose invoice is locked. *)
Lemma approve_with_locked_invoice_witness :
  let out := run (approve_estimate tax_rate "est-1") shop 100 in
  out.1 = Redirect None
  /\ line_items out.2 = line_items shop
  /\ get Document.id "inv-1" (docs out.2) = Some inv1
  /\ (exists est',
        get Document.id "est-1" (docs out.2) = Some est'
        /\ Document.status est' = "approved")
  /\ (exists ro',
        get RepairOrder.id "ro-1" (ros out.2) = Some ro'
        /\ RepairOrder.status ro' = "work_in_progress").
Proof.
  apply (approve_with_locked_invoice tax_rate shop 100 "est-1" est1 ro1 inv1);
    try reflexivity.
  refine (bool_decide_unpack _ _). vm_compute. exact I.
Defined.







(* ================================================================== *)
(** ** Line items: pricing, adding, deleting and editing *)

Lemma new_id_fresh used : new_id used ∉ used.
Proof.
  unfold new_id. intros Hin.
  apply (is_fresh (list_to_set used : gset string)).
  by apply elem_of_list_to_set.
Qed.

Lemma filter_id_app_fresh {A} (key : A -> string) (rows : list A) (r : A) :
  key r ∉ key <$> rows ->
  filter (fun x => key x ≠ key r) (rows ++ [r]) = rows.
Proof.
  intros Hfresh. rewrite filter_app, filter_cons, decide_False by (by intros H; apply H).
  rewrite filter_nil, app_nil_r.
  induction rows as [|x rows IH]; [done|].
  rewrite fmap_cons, not_elem_of_cons in Hfresh. destruct Hfresh as [Hne Hfresh].
  rewrite filter_cons, decide_True by congruence. by rewrite IH.
Qed.

Lemma get_app_fresh {A} (key : A -> string) (rows : list A) (r : A) :
  key r ∉ key <$> rows -> get key (key r) (rows ++ [r]) = Some r.
Proof.
  intros Hfresh. unfold get. induction rows as [|x rows IH]; cbn.
  - by rewrite String.eqb_refl.
  - rewrite fmap_cons, not_elem_of_cons in Hfresh. destruct Hfresh as [Hne Hfresh].
    destruct (String.eqb_spec (key x) (key r)); [congruence|]. by apply IH.
Qed.

Section MoreItems.

Variable TAX_RATE : Decimal.t.
Variable isoformat : datetime -> string.

(** X1. The parts multiplier: the tiers are scanned in ascending order of
    [min_cost]; the first tier with [min_cost <= cost] and no maximum or
    [cost <= max_cost] gives its multiplier as stored; without tiers the
    multiplier is 1.3000; when no tier matches, the last tier gives its
    multiplier. *)
Theorem parts_multiplier_resolution db cost :
  let tiers := order_by PartsMatrixTier.min_cost (parts_tiers db) in
  let mult := get_parts_multiplier_for_cost db cost in
  (tiers ≡ₚ parts_tiers db /\ ascending PartsMatrixTier.min_cost tiers)
  /\ (parts_tiers db = [] -> mult = Decimal.mk 13000 (-4))
  /\ (forall before t after,
        tiers = before ++ t :: after ->
        Forall (fun u => parts_tier_matches cost u = false) before ->
        parts_tier_matches cost t = true ->
        mult = PartsMatrixTier.multiplier t)
  /\ (forall t_last,
        last tiers = Some t_last ->
        Forall (fun u => parts_tier_matches cost u = false) tiers ->
        mult = PartsMatrixTier.multiplier t_last).
Proof.
  intros tiers mult. split; [split; [apply order_by_perm | apply order_by_ascending]|].
  split.
  { intros Hnil. unfold mult, get_parts_multiplier_for_cost. by rewrite Hnil. }
  split.
  - intros before t after Htiers Hbefore Ht.
    unfold mult, get_parts_multiplier_for_cost. fold tiers.
    clearbody tiers. subst tiers.
    rewrite (find_first _ before t after Hbefore Ht). by destruct before.
  - intros t_last Hlast Hnone.
    unfold mult, get_parts_multiplier_for_cost. fold tiers. clearbody tiers.
    rewrite (find_no_match _ _ Hnone). destruct tiers as [|t0 rest]; [done|].
    by rewrite (last_default _ t_last t0 Hlast).
Qed.











(** X7. Editing an item of an unlocked document, with item ids as primary
    keys: the row keeps its id, its document and its type; quantity, unit
    price, cost and labor hours change only when the form gives them; the
    taxable flag and the job tag are always overwritten by the form, so a
    form without a job tag untags the item; no other row changes. *)
Theorem edit_item_effect db now item_id li doc form :
  NoDup (LineItem.id <$> line_items db) ->
  get LineItem.id item_id (line_items db) = Some li ->
  get Document.id (LineItem.document_id li) (docs db) = Some doc ->
  doc_locked doc = false ->
  let out := run (edit_item TAX_RATE item_id form) db now in
  exists li',
    get LineItem.id item_id (line_items out.2) = Some li'
    /\ LineItem.id li' = LineItem.id li
    /\ LineItem.document_id li' = LineItem.document_id li
    /\ LineItem.item_type li' = LineItem.item_type li
    /\ LineItem.qty li' = from_option Some (LineItem.qty li) (e_qty form)
    /\ LineItem.unit_price li'
       = from_option Some (LineItem.unit_price li) (e_unit_price form)
    /\ LineItem.cost li' = from_option Some (LineItem.cost li) (e_cost form)
    /\ LineItem.labor_hours li'
       = from_option Some (LineItem.labor_hours li) (e_labor_hours form)
    /\ LineItem.taxable li' = e_taxable form
    /\ LineItem.job_id li' = e_job_id form
    /\ (forall x, x ∈ line_items db -> x ≠ li -> x ∈ line_items out.2)
    /\ length (line_items out.2) = length (line_items db).
Proof.
  intros Hnd Hli Hdoc Hl out. subst out.
  rewrite (edit_item_unlocked TAX_RATE db now item_id li doc form Hli Hdoc Hl).
  cbn [snd]. rewrite recalc_line_items. cbn [line_items with_line_items].
  exists (edited_item form li). split.
  { by apply get_update_found. }
  cbn [edited_item LineItem.id LineItem.document_id LineItem.item_type
       LineItem.qty LineItem.unit_price LineItem.cost LineItem.labor_hours
       LineItem.taxable LineItem.job_id].
  do 3 (split; [done|]).
  split; [by destruct (e_qty form)|]. split; [by destruct (e_unit_price form)|].
  split; [by destruct (e_cost form)|]. split; [by destruct (e_labor_hours form)|].
  split; [done|]. split; [done|]. split.
  - intros x Hx Hne. unfold update. apply list_elem_of_fmap. exists x.
    split; [|done]. destruct (String.eqb_spec (LineItem.id x) item_id) as [E|]; [|done].
    exfalso. apply Hne.
    pose proof (get_primary_key LineItem.id _ x Hnd Hx) as H1.
    rewrite E, Hli in H1. congruence.
  - unfold update. by rewrite length_map.
Qed.

(** X8. [recalc_document_totals] writes nothing but the three money
    columns of the document it is called on: every table but the
    documents is as before, the documents are the same rows in the same
    order, each one as before once its old amounts are put back, and
    every document with another id is as before. *)
Theorem recalc_frame db doc_id :
  let db' := recalc_document_totals TAX_RATE doc_id db in
  ros db' = ros db /\ jobs db' = jobs db /\ line_items db' = line_items db
  /\ events db' = events db /\ labor_tiers db' = labor_tiers db
  /\ parts_tiers db' = parts_tiers db /\ technicians db' = technicians db
  /\ Forall2
       (fun d d' =>
          Document.set_totals (Document.subtotal d) (Document.tax d)
            (Document.total d) d' = d
          /\ (Document.id d ≠ doc_id -> d' = d))
       (docs db) (docs db').
Proof.
  intros db'. subst db'.
  assert (Hsame : forall l : list Document.t,
    Forall2
      (fun d d' =>
         Document.set_totals (Document.subtotal d) (Document.tax d)
           (Document.total d) d' = d
         /\ (Document.id d ≠ doc_id -> d' = d)) l l).
  { intros l. apply Forall2_same_length_lookup. split; [done|].
    intros i d d' H1 H2. rewrite H1 in H2. injection H2 as <-.
    split; [by destruct d | done]. }
  unfold recalc_document_totals.
  destruct (get _ _ _) as [doc|]; [|repeat (split; [done|]); apply Hsame].
  destruct (doc_locked doc); [repeat (split; [done|]); apply Hsame|].
  destruct (totals_of _ _) as [[s x] t]. cbn. repeat (split; [done|]).
  unfold update. apply Forall2_fmap_r, Forall2_same_length_lookup. split; [done|].
  intros i d d' H1 H2. rewrite H1 in H2. injection H2 as <-.
  unfold compose. cbn beta.
  destruct (String.eqb_spec (Document.id d) doc_id); [|split; [by destruct d | done]].
  split; [by destruct d | done].
Qed.

End MoreItems.

(* ================================================================== *)
(** ** Line items at the sample shop *)

(** The parts scenario: tiers (0, 100, 1.5) and (100, none, 1.3); a cost
    of 50.00 gets the multiplier 1.5. *)
Lemma parts_multiplier_resolution_witness :
  get_parts_multiplier_for_cost matrix_shop (money 5000) = Decimal.mk 15000 (-4).
Proof.
  pose proof (parts_multiplier_resolution matrix_shop (money 5000))
    as (_ & _ & H & _).
  apply (H [] parts_tier_low [parts_tier_high]); [reflexivity | | reflexivity].
  constructor.
Defined.





(** An edit of the part that fills in nothing: quantity and price stay,
    the item is no longer taxable and no longer tagged to its job. *)
Lemma edit_item_effect_witness :
  exists li',
    get LineItem.id "li-2"
      (line_items (run (edit_item tax_rate "li-2" empty_edit) shop 100).2)
    = Some li'
    /\ LineItem.qty li' = Some (money 100)
    /\ LineItem.unit_price li' = Some (money 300)
    /\ LineItem.taxable li' = false
    /\ LineItem.job_id li' = None.
Proof.
  assert (Hnd : NoDup (LineItem.id <$> line_items shop))
    by (refine (bool_decide_unpack _ _); vm_compute; exact I).
  destruct (edit_item_effect tax_rate shop 100 "li-2" part_item est1 empty_edit
              Hnd eq_refl eq_refl eq_refl)
    as (li' & Hget & _ & _ & _ & Hq & Hp & _ & _ & Htax & Hjob & _).
  exists li'. split; [exact Hget|]. split; [exact Hq|]. split; [exact Hp|].
  split; [exact Htax | exact Hjob].
Defined.

(* ================================================================== *)
(** ** Status changes of repair orders and jobs *)

Section Lifecycle.

Variable TAX_RATE : Decimal.t.
Variable isoformat : datetime -> string.

(** X9. The guards of the document actions: an id that names no document
    gives 404; approving or declining a document that is not an estimate,
    and marking as paid a document that is not an invoice, give 400; in
    all these cases the database stays as it was. *)
Theorem document_action_guards db now doc_id :
  match get Document.id doc_id (docs db) with
  | None =>
      run (approve_estimate TAX_RATE doc_id) db now = (Abort 404, db)
      /\ run (decline_estimate doc_id) db now = (Abort 404, db)
      /\ run (mark_invoice_paid doc_id) db now = (Abort 404, db)
      /\ run (lock_document TAX_RATE doc_id) db now = (Abort 404, db)
  | Some doc =>
      (Document.doc_type doc ≠ "estimate" ->
       run (approve_estimate TAX_RATE doc_id) db now = (Abort 400, db)
       /\ run (decline_estimate doc_id) db now = (Abort 400, db))
      /\ (Document.doc_type doc ≠ "invoice" ->
          run (mark_invoice_paid doc_id) db now = (Abort 400, db))
  end.
Proof.
  destruct (get Document.id doc_id (docs db)) as [doc|] eqn:Hdoc.
  - split.
    + intros Hty. apply String.eqb_neq in Hty.
      unfold approve_estimate, decline_estimate. step_handler.
      by rewrite Hdoc, Hty.
    + intros Hty. apply String.eqb_neq in Hty.
      unfold mark_invoice_paid. step_handler. by rewrite Hdoc, Hty.
  - unfold approve_estimate, decline_estimate, mark_invoice_paid, lock_document.
    step_handler. by rewrite Hdoc.
Qed.

(** X10. Declining an estimate sets its status to [declined] and does
    nothing else to the documents; it does not cascade: repair orders,
    jobs and line items are as before, and one [declined] event carrying
    the document id is recorded. *)
Theorem decline_estimate_effect db now doc_id doc :
  get Document.id doc_id (docs db) = Some doc ->
  Document.doc_type doc = "estimate" ->
  let out := run (decline_estimate doc_id) db now in
  out.1 = Redirect None
  /\ get Document.id doc_id (docs out.2) = Some (Document.set_status "declined" doc)
  /\ docs out.2 = update Document.id doc_id (Document.set_status "declined") (docs db)
  /\ ros out.2 = ros db /\ jobs out.2 = jobs db /\ line_items out.2 = line_items db
  /\ events out.2
     = events db ++ [ROEvent.mk (Document.ro_id doc) "declined" None (Some doc_id)].
Proof.
  intros Hdoc Hty out. subst out. unfold decline_estimate. step_handler.
  rewrite Hdoc, Hty, String.eqb_refl. cbn [negb].
  norm_db. split; [done|]. split; [by apply get_update_found|].
  repeat (split; [done|]). by rewrite (get_key _ _ _ _ Hdoc).
Qed.

(** X11. Changing the status of a repair order: a status outside the five
    allowed ones is turned down with "Invalid status." and nothing
    changes; an allowed one is stored, the closing time is cleared unless
    the new status is [closed], and on closing it is stamped only when
    the repair order has none yet; jobs, documents and line items are
    not touched. *)
Theorem ro_change_status_effect db now ro_id ro new_status :
  get RepairOrder.id ro_id (ros db) = Some ro ->
  let out := run (ro_change_status ro_id new_status) db now in
  if in_strs new_status
       ["open"; "estimate_sent"; "work_in_progress"; "closed"; "canceled"]
  then
    out.1 = Redirect None
    /\ (exists ro',
          get RepairOrder.id ro_id (ros out.2) = Some ro'
          /\ RepairOrder.status ro' = new_status
          /\ RepairOrder.closed_at ro'
             = (if String.eqb new_status "closed"
                then Some (default now (RepairOrder.closed_at ro))
                else None)
          /\ RepairOrder.deleted_at ro' = RepairOrder.deleted_at ro)
    /\ jobs out.2 = jobs db /\ docs out.2 = docs db
    /\ line_items out.2 = line_items db
  else out = (Redirect (Some "Invalid status."), db).
Proof.
  intros Hro out. subst out. unfold ro_change_status. step_handler. rewrite Hro.
  destruct (in_strs new_status _); cbn [negb]; [|done].
  destruct (String.eqb new_status "closed") eqn:Hc; cbn [negb andb].
  - destruct (RepairOrder.closed_at ro) as [t|] eqn:Hat; cbn [bool_decide decide_rel];
      [rewrite bool_decide_eq_false_2 by done | rewrite bool_decide_eq_true_2 by done];
      norm_db; (split; [done|]); (split; [|done]); eexists;
      (split; [repeat (apply get_update_found; [done|]); exact Hro|]);
      cbn; by rewrite ?Hat.
  - norm_db. split; [done|]. split; [|done]. eexists.
    split; [repeat (apply get_update_found; [done|]); exact Hro|]. done.
Qed.

(** X12. Setting a job to a status other than [completed]: a status
    outside the five allowed ones is turned down with "Invalid job status."
    and nothing changes; otherwise the job takes the status, and the
    repair order becomes [work_in_progress] exactly when the new status is
    [approved] or [work_in_progress] and the repair order was [open] or
    [estimate_sent]; a closed or canceled repair order is not reopened,
    and [pending] and [declined] never touch it. *)
Theorem job_set_status_cascade db now job_id job ro new_status :
  get Job.id job_id (jobs db) = Some job ->
  get RepairOrder.id (Job.ro_id job) (ros db) = Some ro ->
  new_status ≠ "completed" ->
  let out := run (job_set_status isoformat job_id new_status) db now in
  if in_strs new_status
       ["pending"; "approved"; "work_in_progress"; "completed"; "declined"]
  then
    out.1 = Redirect None
    /\ get Job.id job_id (jobs out.2) = Some (Job.set_status new_status job)
    /\ ros out.2
       = (if in_strs new_status ["approved"; "work_in_progress"]
             && in_strs (RepairOrder.status ro) ["open"; "estimate_sent"]
          then update RepairOrder.id (Job.ro_id job)
                 (RepairOrder.set_status "work_in_progress") (ros db)
          else ros db)
    /\ docs out.2 = docs db /\ line_items out.2 = line_items db
  else out = (Redirect (Some "Invalid job status."), db).
Proof.
  intros Hjob Hro Hnc out. subst out. unfold job_set_status. step_handler.
  rewrite Hjob, Hro. destruct (in_strs new_status _); cbn [negb]; [|done].
  apply String.eqb_neq in Hnc. rewrite Hnc. cbn [andb].
  rewrite (get_key _ _ _ _ Hro).
  destruct (_ && _); step_handler; norm_db;
    (split; [done|]); (split; [by apply get_update_found|]); done.
Qed.

(** X13. Completing a job through [job_set_status]: the job becomes
    [completed] and gets a completion time unless it has one; when no job
    of the repair order is left uncompleted, the repair order becomes
    [closed] with a closing time and one [ro_completed] event follows the
    [job_status] event; otherwise the repair orders are as before and the
    [job_status] event is the only one. *)
Theorem job_completion_closes db now job_id job ro :
  get Job.id job_id (jobs db) = Some job ->
  get RepairOrder.id (Job.ro_id job) (ros db) = Some ro ->
  let out := run (job_set_status isoformat job_id "completed") db now in
  let status_event :=
    ROEvent.mk (Job.ro_id job) "job_status"
      (Some (Job.title job +:+ ":" +:+ Job.status job))
      (Some (Job.title job +:+ ":" +:+ "completed")) in
  out.1 = Redirect None
  /\ (exists job',
        get Job.id job_id (jobs out.2) = Some job'
        /\ Job.status job' = "completed"
        /\ Job.completed_at job' = Some (default now (Job.completed_at job)))
  /\ match remaining_jobs (Job.ro_id job) out.2 with
     | O =>
         exists ro' t,
           get RepairOrder.id (Job.ro_id job) (ros out.2) = Some ro'
           /\ RepairOrder.status ro' = "closed"
           /\ RepairOrder.closed_at ro' = Some t
           /\ events out.2
              = events db
                ++ [status_event;
                    ROEvent.mk (Job.ro_id job) "ro_completed" None
                      (Some (isoformat t))]
     | S _ => ros out.2 = ros db /\ events out.2 = events db ++ [status_event]
     end.
Proof.
  intros Hjob Hro out status_event. subst out status_event.
  unfold job_set_status, close_if_no_job_remains. step_handler.
  rewrite Hjob, Hro. cbn [in_strs existsb String.eqb Ascii.eqb Bool.eqb orb negb andb].
  rewrite (get_key _ _ _ _ Hro).
  destruct (Job.completed_at job) as [t0|] eqn:Hat;
    [rewrite bool_decide_eq_false_2 by done | rewrite bool_decide_eq_true_2 by done];
    step_handler; unfold remaining_jobs; norm_db;
    match goal with
    | |- context [length ?l] => destruct (length l) eqn:Hrem
    end; norm_db; rewrite ?Hrem.
  all: split; [done|].
  all: split;
    [eexists; split; [repeat (apply get_update_found; [done|]); exact Hjob|];
     cbn; by rewrite ?Hat |].
  all: try (split; [done|]; by rewrite <- ?app_assoc).
  all: eexists _, _;
    (split; [repeat (apply get_update_found; [done|]); exact Hro|]);
    cbn; (split; [done|]); (split; [done|]); by rewrite <- app_assoc.
Qed.

(** X14. The public status change of a job through a share link: an
    unknown token gives 404, a token of a document that is not an estimate
    400, an unknown job or a job of another repair order 404, and a status
    other than [approved] and [declined] 400, each time with the database
    untouched; otherwise the job takes the status, and only [approved]
    can move the repair order, to [work_in_progress] when it was [open] or
    [estimate_sent]. *)
Theorem share_job_status_effect db now token job_id new_status :
  let out := run (share_job_status token job_id new_status) db now in
  match find (fun d => bool_decide (Document.share_token d = Some token)) (docs db) with
  | None => out = (Abort 404, db)
  | Some doc =>
      if negb (String.eqb (Document.doc_type doc) "estimate")
      then out = (Abort 400, db)
      else
        match get Job.id job_id (jobs db) with
        | None => out = (Abort 404, db)
        | Some job =>
            if negb (String.eqb (Job.ro_id job) (Document.ro_id doc))
            then out = (Abort 404, db)
            else if negb (in_strs new_status ["approved"; "declined"])
            then out = (Abort 400, db)
            else
              forall ro,
                get RepairOrder.id (Job.ro_id job) (ros db) = Some ro ->
                out.1 = Redirect None
                /\ get Job.id job_id (jobs out.2)
                   = Some (Job.set_status new_status job)
                /\ ros out.2
                   = (if String.eqb new_status "approved"
                         && in_strs (RepairOrder.status ro) ["open"; "estimate_sent"]
                      then update RepairOrder.id (Job.ro_id job)
                             (RepairOrder.set_status "work_in_progress") (ros db)
                      else ros db)
                /\ docs out.2 = docs db /\ line_items out.2 = line_items db
        end
  end.
Proof.
  intros out. subst out. unfold share_job_status, doc_by_token_or_404. step_handler.
  destruct (find _ (docs db)) as [doc|]; [|done].
  destruct (negb (String.eqb (Document.doc_type doc) "estimate")); [done|].
  step_handler.
  destruct (get Job.id job_id (jobs db)) as [job|] eqn:Hjob; [|done].
  destruct (negb (String.eqb (Job.ro_id job) (Document.ro_id doc))); [done|].
  destruct (negb (in_strs new_status _)); [done|].
  intros ro Hro. norm_db.
  destruct (String.eqb new_status "approved"); cbn [andb].
  - step_handler. norm_db. rewrite Hro. rewrite (get_key _ _ _ _ Hro).
    destruct (in_strs (RepairOrder.status ro) _); norm_db;
      (split; [done|]); (split; [by apply get_update_found|]); done.
  - norm_db. split; [done|]. split; [by apply get_update_found|]. done.
Qed.



End Lifecycle.

(* ================================================================== *)
(** ** Document actions, archiving, job totals and the matrices *)

Section Documents.

Variable TAX_RATE : Decimal.t.
Variable isoformat : datetime -> string.


Lemma frozen_rejects_add db now doc_id doc form :
  get Document.id doc_id (docs db) = Some doc ->
  doc_locked doc = true ->
  run (add_line_item TAX_RATE doc_id form) db now
  = (Redirect (Some "Document is locked."), db).
Proof. intros Hg Hl. unfold add_line_item. step_handler. by rewrite Hg, Hl. Qed.


(** X17. Marking an invoice as paid sets its status to [paid], records
    one [paid] event with the document id, leaves its stored totals and
    every other table as they were, and freezes the invoice: a request to
    add a line item is turned down from then on. *)
Theorem mark_invoice_paid_effect db now doc_id doc :
  get Document.id doc_id (docs db) = Some doc ->
  Document.doc_type doc = "invoice" ->
  let out := run (mark_invoice_paid doc_id) db now in
  out.1 = Redirect None
  /\ get Document.id doc_id (docs out.2) = Some (Document.set_status "paid" doc)
  /\ ros out.2 = ros db /\ jobs out.2 = jobs db /\ line_items out.2 = line_items db
  /\ events out.2
     = events db ++ [ROEvent.mk (Document.ro_id doc) "paid" None (Some doc_id)]
  /\ (forall form now',
        run (add_line_item TAX_RATE doc_id form) out.2 now'
        = (Redirect (Some "Document is locked."), out.2)).
Proof.
  intros Hdoc Hty out.
  assert (Hout :
    out = (Redirect None,
           with_events (fun l => l ++ [ROEvent.mk (Document.ro_id doc) "paid"
                                         None (Some doc_id)])
             (with_docs (update Document.id doc_id (Document.set_status "paid")) db))).
  { subst out. unfold mark_invoice_paid. step_handler. rewrite Hdoc, Hty.
    cbn. rewrite (get_key _ _ _ _ Hdoc). done. }
  assert (Hget : get Document.id doc_id (docs out.2)
                 = Some (Document.set_status "paid" doc)).
  { rewrite Hout. norm_db. by apply get_update_found. }
  split; [by rewrite Hout|]. split; [done|].
  do 4 (split; [by rewrite Hout|]).
  intros form now'. by apply (frozen_rejects_add _ _ _ _ form Hget).
Qed.









(** X21. Archiving a repair order is a soft delete: the answer is always
    "Repair order archived."; the row stays, with its status and closing
    time, and gets an archiving time unless it has one; jobs, documents
    and line items stay; one [ro_deleted] event is recorded the first
    time and none afterwards, and archiving again changes nothing. *)
Theorem ro_delete_archives db now ro_id ro :
  get RepairOrder.id ro_id (ros db) = Some ro ->
  let out := run (ro_delete isoformat ro_id) db now in
  out.1 = Redirect (Some "Repair order archived.")
  /\ (exists ro',
        get RepairOrder.id ro_id (ros out.2) = Some ro'
        /\ RepairOrder.deleted_at ro' = Some (default now (RepairOrder.deleted_at ro))
        /\ RepairOrder.status ro' = RepairOrder.status ro
        /\ RepairOrder.closed_at ro' = RepairOrder.closed_at ro)
  /\ jobs out.2 = jobs db /\ docs out.2 = docs db
  /\ line_items out.2 = line_items db
  /\ events out.2
     = events db
       ++ (if bool_decide (RepairOrder.deleted_at ro = None)
           then [ROEvent.mk ro_id "ro_deleted" None (Some (isoformat now))]
           else [])
  /\ (forall now', run (ro_delete isoformat ro_id) out.2 now' = out).
Proof.
  intros Hro out.
  assert (Hfirst :
    out.1 = Redirect (Some "Repair order archived.")
    /\ (exists ro',
          get RepairOrder.id ro_id (ros out.2) = Some ro'
          /\ RepairOrder.deleted_at ro' = Some (default now (RepairOrder.deleted_at ro))
          /\ RepairOrder.status ro' = RepairOrder.status ro
          /\ RepairOrder.closed_at ro' = RepairOrder.closed_at ro)
    /\ jobs out.2 = jobs db /\ docs out.2 = docs db
    /\ line_items out.2 = line_items db
    /\ events out.2
       = events db
         ++ (if bool_decide (RepairOrder.deleted_at ro = None)
             then [ROEvent.mk ro_id "ro_deleted" None (Some (isoformat now))]
             else [])).
  { subst out. unfold ro_delete. step_handler. rewrite Hro.
    rewrite (get_key _ _ _ _ Hro).
    destruct (RepairOrder.deleted_at ro) as [t0|] eqn:Hat;
      [rewrite bool_decide_eq_false_2 by done | rewrite bool_decide_eq_true_2 by done];
      norm_db.
    - split; [done|]. split; [exists ro; by rewrite Hat|]. by rewrite app_nil_r.
    - split; [done|]. split; [|done]. eexists. split; [by apply get_update_found|].
      done. }
  destruct Hfirst as (Hresp & (ro' & Hget & Hdel & Hrest) & Hother).
  split; [done|]. split; [by exists ro'|].
  do 4 (split; [apply Hother|]).
  intros now'. unfold ro_delete. step_handler. rewrite Hget, Hdel.
  rewrite bool_decide_eq_false_2 by done. destruct out as [r db']. cbn in *.
  by rewrite Hresp.
Qed.

(** X22. Renaming a job: an empty name is turned down with "Job name is
    required." and nothing changes; otherwise the job takes the name and
    keeps its status, completion time and technician, one [job_renamed]
    event with the old and the new name is recorded, also when the two
    are equal, and the other tables are as before. *)
Theorem job_edit_effect db now job_id job ro title :
  get Job.id job_id (jobs db) = Some job ->
  get RepairOrder.id (Job.ro_id job) (ros db) = Some ro ->
  let out := run (job_edit job_id title) db now in
  if String.eqb title ""
  then out = (Redirect (Some "Job name is required."), db)
  else
    out.1 = Redirect None
    /\ get Job.id job_id (jobs out.2) = Some (job_set_title title job)
    /\ ros out.2 = ros db /\ docs out.2 = docs db
    /\ line_items out.2 = line_items db
    /\ events out.2
       = events db
         ++ [ROEvent.mk (Job.ro_id job) "job_renamed" (Some (Job.title job))
               (Some title)].
Proof.
  intros Hjob Hro out. subst out. unfold job_edit. step_handler.
  rewrite Hjob, Hro. rewrite (get_key _ _ _ _ Hro).
  destruct (String.eqb title ""); [done|]. norm_db.
  split; [done|]. split; [by apply get_update_found|]. done.
Qed.








(** X26. Deleting a matrix tier by id: a labor tier with that id is
    removed and the parts matrix is not looked at; otherwise a parts tier
    with that id is removed; an id that names no tier gives 404 and
    nothing changes.  The other tiers stay, in their order. *)
Theorem matrices_delete_tier_effect db now tier_id :
  let out := run (matrices_delete_tier tier_id) db now in
  match get LaborMatrixTier.id tier_id (labor_tiers db),
        get PartsMatrixTier.id tier_id (parts_tiers db) with
  | Some _, _ =>
      out.1 = Redirect None
      /\ labor_tiers out.2
         = filter (fun t => LaborMatrixTier.id t ≠ tier_id) (labor_tiers db)
      /\ get LaborMatrixTier.id tier_id (labor_tiers out.2) = None
      /\ parts_tiers out.2 = parts_tiers db
  | None, Some _ =>
      out.1 = Redirect None
      /\ parts_tiers out.2
         = filter (fun t => PartsMatrixTier.id t ≠ tier_id) (parts_tiers db)
      /\ get PartsMatrixTier.id tier_id (parts_tiers out.2) = None
      /\ labor_tiers out.2 = labor_tiers db
  | None, None => out = (Abort 404, db)
  end.
Proof.
  intros out. subst out. unfold matrices_delete_tier. step_handler.
  destruct (get LaborMatrixTier.id tier_id (labor_tiers db)) as [t|] eqn:Hl.
  - cbn [labor_tiers parts_tiers with_labor_tiers fst snd].
    split; [done|]. split; [done|]. split; [|done].
    apply get_none. intros Hin. apply list_elem_of_fmap in Hin as (r & Hk & Hr).
    apply list_elem_of_filter in Hr as [Hne _]. done.
  - destruct (get PartsMatrixTier.id tier_id (parts_tiers db)) as [t|] eqn:Hp; [|done].
    cbn [labor_tiers parts_tiers with_parts_tiers fst snd].
    split; [done|]. split; [done|]. split; [|done].
    apply get_none. intros Hin. apply list_elem_of_fmap in Hin as (r & Hk & Hr).
    apply list_elem_of_filter in Hr as [Hne _]. done.
Qed.

(** X27. Adding a labor tier and deleting the tier that was added gives
    back the database the request started from. *)
Theorem labor_tier_add_then_delete db now now' min_hours max_hours rate :
  let added := run (matrices_labor_add min_hours max_hours rate) db now in
  let tier_id := new_id (LaborMatrixTier.id <$> labor_tiers db) in
  added.1 = Redirect None
  /\ is_Some (get LaborMatrixTier.id tier_id (labor_tiers added.2))
  /\ run (matrices_delete_tier tier_id) added.2 now' = (Redirect None, db).
Proof.
  intros added tier_id.
  set (t := LaborMatrixTier.mk tier_id (or_default min_hours Decimal.zero_00)
              max_hours (or_default rate (Decimal.mk 11500 (-2)))).
  assert (Hfresh : LaborMatrixTier.id t ∉ LaborMatrixTier.id <$> labor_tiers db)
    by apply new_id_fresh.
  assert (Hadded : added = (Redirect None, with_labor_tiers (fun l => l ++ [t]) db))
    by done.
  rewrite Hadded. cbn [fst snd labor_tiers with_labor_tiers].
  pose proof (get_app_fresh LaborMatrixTier.id (labor_tiers db) t Hfresh) as Hget.
  change (LaborMatrixTier.id t) with tier_id in Hget.
  split; [done|]. split; [by rewrite Hget|].
  unfold matrices_delete_tier. step_handler.
  cbn [labor_tiers with_labor_tiers]. rewrite Hget.
  pose proof (filter_id_app_fresh LaborMatrixTier.id (labor_tiers db) t Hfresh) as Hf.
  change (LaborMatrixTier.id t) with tier_id in Hf.
  unfold with_labor_tiers.
  cbn [labor_tiers parts_tiers ros jobs docs line_items events technicians].
  rewrite Hf. by destruct db.
Qed.

End Documents.

(* ================================================================== *)
(** ** The promotion of an estimate to an invoice *)

Section Promotion.

Variable TAX_RATE : Decimal.t.
Variable isoformat : datetime -> string.




















End Promotion.

(* ================================================================== *)
(** ** Completing a job *)

Section Completion.

Variable TAX_RATE : Decimal.t.
Variable isoformat : datetime -> string.



End Completion.

(* ================================================================== *)
(** ** Lifecycle and documents at the sample shop *)

(** The locked invoice of the sample shop is no estimate: approving and
    declining it give 400. *)
Lemma document_action_guards_witness :
  run (approve_estimate tax_rate "inv-1") shop 100 = (Abort 400, shop)
  /\ run (decline_estimate "inv-1") shop 100 = (Abort 400, shop).
Proof.
  destruct (document_action_guards tax_rate shop 100 "inv-1") as [H _].
  apply H. discriminate.
Defined.

(** Declining the estimate of the sample shop. *)
Lemma decline_estimate_effect_witness :
  let out := run (decline_estimate "est-1") shop 100 in
  out.1 = Redirect None
  /\ get Document.id "est-1" (docs out.2) = Some (Document.set_status "declined" est1)
  /\ ros out.2 = [ro1]
  /\ events out.2 = [ROEvent.mk "ro-1" "declined" None (Some "est-1")].
Proof.
  destruct (decline_estimate_effect shop 100 "est-1" est1 eq_refl eq_refl)
    as (H1 & H2 & _ & H4 & _ & _ & H7).
  split; [exact H1|]. split; [exact H2|]. split; [exact H4 | exact H7].
Defined.

(** Closing the open repair order at time 100. *)
Lemma ro_change_status_effect_witness :
  let out := run (ro_change_status "ro-1" "closed") shop 100 in
  out.1 = Redirect None
  /\ exists ro',
       get RepairOrder.id "ro-1" (ros out.2) = Some ro'
       /\ RepairOrder.status ro' = "closed"
       /\ RepairOrder.closed_at ro' = Some 100.
Proof.
  destruct (ro_change_status_effect shop 100 "ro-1" ro1 "closed" eq_refl)
    as (H1 & (ro' & Hget & Hs & Hc & _) & _).
  split; [exact H1|]. exists ro'. split; [exact Hget|]. split; [exact Hs | exact Hc].
Defined.

(** Approving the brake job moves the open repair order to work in
    progress. *)
Lemma job_set_status_cascade_witness :
  let out := run (job_set_status iso "job-1" "approved") shop 100 in
  out.1 = Redirect None
  /\ get Job.id "job-1" (jobs out.2) = Some (Job.set_status "approved" job1)
  /\ ros out.2 = [RepairOrder.set_status "work_in_progress" ro1].
Proof.
  assert (Hne : "approved" ≠ "completed") by discriminate.
  destruct (job_set_status_cascade iso shop 100 "job-1" job1 ro1 "approved"
              eq_refl eq_refl Hne) as (H1 & H2 & H3 & _).
  split; [exact H1|]. split; [exact H2 | exact H3].
Defined.

(** Completing the only job of the repair order closes it. *)
Lemma job_completion_closes_witness :
  let out := run (job_set_status iso "job-1" "completed") solo_shop 100 in
  out.1 = Redirect None
  /\ exists ro' t,
       get RepairOrder.id "ro-1" (ros out.2) = Some ro'
       /\ RepairOrder.status ro' = "closed"
       /\ RepairOrder.closed_at ro' = Some t.
Proof.
  destruct (job_completion_closes iso solo_shop 100 "job-1" job1 ro1 eq_refl eq_refl)
    as (H1 & _ & ro' & t & Hget & Hs & Hc & _).
  split; [exact H1|]. exists ro', t. split; [exact Hget|]. split; [exact Hs | exact Hc].
Defined.

(** The customer approves the brake job through the share link. *)
Lemma share_job_status_effect_witness :
  let out := run (share_job_status "tok-1" "job-1" "approved") shared_shop 100 in
  out.1 = Redirect None
  /\ get Job.id "job-1" (jobs out.2) = Some (Job.set_status "approved" job1)
  /\ ros out.2 = [RepairOrder.set_status "work_in_progress" ro1].
Proof.
  destruct (share_job_status_effect shared_shop 100 "tok-1" "job-1" "approved"
              ro1 eq_refl) as (H1 & H2 & H3 & _).
  split; [exact H1|]. split; [exact H2 | exact H3].
Defined.



(** Marking the invoice of the sample shop as paid. *)
Lemma mark_invoice_paid_effect_witness :
  let out := run (mark_invoice_paid "inv-1") shop 100 in
  out.1 = Redirect None
  /\ get Document.id "inv-1" (docs out.2) = Some (Document.set_status "paid" inv1)
  /\ events out.2 = [ROEvent.mk "ro-1" "paid" None (Some "inv-1")].
Proof.
  destruct (mark_invoice_paid_effect tax_rate shop 100 "inv-1" inv1 eq_refl eq_refl)
    as (H1 & H2 & _ & _ & _ & H6 & _).
  split; [exact H1|]. split; [exact H2 | exact H6].
Defined.



(** Archiving the repair order at time 100, and archiving it again. *)
Lemma ro_delete_archives_witness :
  let out := run (ro_delete iso "ro-1") shop 100 in
  out.1 = Redirect (Some "Repair order archived.")
  /\ jobs out.2 = [job1; job2]
  /\ events out.2 = [ROEvent.mk "ro-1" "ro_deleted" None (Some (iso 100))]
  /\ run (ro_delete iso "ro-1") out.2 200 = out.
Proof.
  destruct (ro_delete_archives iso shop 100 "ro-1" ro1 eq_refl)
    as (H1 & _ & H3 & _ & _ & H6 & H7).
  split; [exact H1|]. split; [exact H3|]. split; [exact H6 | exact (H7 200)].
Defined.

(** Renaming the brake job. *)
Lemma job_edit_effect_witness :
  let out := run (job_edit "job-1" "Front brakes") shop 100 in
  out.1 = Redirect None
  /\ get Job.id "job-1" (jobs out.2) = Some (job_set_title "Front brakes" job1)
  /\ events out.2
     = [ROEvent.mk "ro-1" "job_renamed" (Some "Brakes") (Some "Front brakes")].
Proof.
  destruct (job_edit_effect shop 100 "job-1" job1 ro1 "Front brakes" eq_refl eq_refl)
    as (H1 & H2 & _ & _ & _ & H6).
  split; [exact H1|]. split; [exact H2 | exact H6].
Defined.




